(** * Gestalt: tap-target activation, Checkbox variant selection and the
      DatePicker mobile sheet

    A shallow embedding of three components of the Gestalt component library:

    - [IconButtonEnd] (packages/gestalt/src/TextField/IconButtonEnd.tsx),
    - [Checkbox]      (packages/gestalt/src/Checkbox.tsx),
    - [DatePicker]    (packages/gestalt-datepicker/src/DatePicker.tsx).

    A component is a function from its props and its hook state to the element
    it returns.  Event handlers are computations in a small state monad over
    the hook state and the observable effects (calls of the caller's
    callback, [preventDefault] on the event being dispatched). *)

From Stdlib Require Import ZArith List Bool String Lia.
Import ListNotations.
Local Open Scope Z_scope.

(** ** JavaScript values used by the components *)

(** A prop of type [T | null | undefined]. An optional prop [p?: T] is an
    [option T], [None] standing for [undefined]. *)
Inductive Nullable (A : Type) : Type :=
| Undefined
| Null
| Value (a : A).
Arguments Undefined {A}.
Arguments Null {A}.
Arguments Value {A} a.

(** Truthiness of [string | null | undefined]: only a non-empty string. *)
Definition truthyString (v : Nullable string) : bool :=
  match v with
  | Value s => negb (String.eqb s EmptyString)
  | Undefined | Null => false
  end.

(** Truthiness of [boolean | undefined]. *)
Definition truthyBool (v : option bool) : bool :=
  match v with
  | Some b => b
  | None => false
  end.

(** A destructuring default [x = d]: it replaces [undefined] only. *)
Definition withDefault {A : Type} (d : A) (v : option A) : A :=
  match v with
  | Some a => a
  | None => d
  end.

(** An optional prop seen as [T | null | undefined]. *)
Definition ofOption {A : Type} (v : option A) : Nullable A :=
  match v with
  | Some a => Value a
  | None => Undefined
  end.

(** [Array.prototype.includes] on an array of key codes. *)
Definition includes (xs : list Z) (x : Z) : bool :=
  existsb (Z.eqb x) xs.

(** ** IconButtonEnd *)

Module IconButtonEnd.

(** What a handler of one mounted instance can touch: the [focused] hook
    state, the caller's [onClick] (observed by the number of its calls) and
    the [defaultPrevented] flag of the DOM event being dispatched. *)
Record Store : Type := mkStore {
  focused : bool;
  onClickCalls : nat;
  defaultPrevented : bool
}.

(** [useState(false)], nothing called, nothing prevented. *)
Definition mount : Store := mkStore false 0%nat false.

Definition Eff (A : Type) : Type := Store -> A * Store.

Definition ret {A : Type} (a : A) : Eff A := fun s => (a, s).

Definition bind {A B : Type} (m : Eff A) (k : A -> Eff B) : Eff B :=
  fun s => let (a, s') := m s in k a s'.

Notation "x <- m ;; k" := (bind m (fun x => k))
  (at level 61, m at next level, right associativity).
Notation "m ;; k" := (bind m (fun _ => k))
  (at level 61, right associativity).

Definition exec {A : Type} (m : Eff A) (s : Store) : Store := snd (m s).

(** [if (c) stmt;] *)
Definition when (c : bool) (m : Eff unit) : Eff unit :=
  if c then m else ret tt.

Definition setFocused (b : bool) : Eff unit :=
  fun s => (tt, mkStore b (onClickCalls s) (defaultPrevented s)).

(** One call of the [onClick] prop. *)
Definition onClick : Eff unit :=
  fun s => (tt, mkStore (focused s) (S (onClickCalls s)) (defaultPrevented s)).

(** [event.preventDefault()] *)
Definition preventDefault : Eff unit :=
  fun s => (tt, mkStore (focused s) (onClickCalls s) true).

Definition getDefaultPrevented : Eff bool :=
  fun s => (defaultPrevented s, s).

(** A fresh DOM event starts with [defaultPrevented = false]. *)
Definition newEvent : Eff unit :=
  fun s => (tt, mkStore (focused s) (onClickCalls s) false).

Inductive HoverStyle : Type := hoverDefault | hoverNone.

Inductive Icon : Type :=
| arrow_down | cancel | eye | eye_hide | compact_chevron_down | compact_cancel.

Inductive BgColor : Type := lightGray | transparent.

Inductive Role : Type := switch.

Definition HoverStyle_eqb (a b : HoverStyle) : bool :=
  match a, b with
  | hoverDefault, hoverDefault | hoverNone, hoverNone => true
  | _, _ => false
  end.

Record Props : Type := mkProps {
  accessibilityChecked : option bool;
  accessibilityHidden : option bool;
  accessibilityLabel : option string;
  hoverStyle : option HoverStyle;
  icon : Icon;
  pogPadding : option Z;
  role : option Role;
  tapStyle : option string;
  tooltipText : option string
}.

Record PogProps : Type := mkPog {
  pog_accessibilityLabel : string;
  pog_bgColor : BgColor;
  pog_icon : Icon;
  pog_iconColor : string;
  pog_padding : Z;
  pog_size : string
}.

Record TapAreaProps : Type := mkTapArea {
  ta_accessibilityChecked : option bool;
  ta_accessibilityLabel : option string;
  ta_onBlur : Eff unit;
  ta_onFocus : Eff unit;
  ta_onKeyDown : Z -> Eff unit;    (* receives [{ event }], read through [event.keyCode] *)
  ta_onMouseEnter : Eff unit;
  ta_onMouseLeave : Eff unit;
  ta_onTap : Eff unit;
  ta_role : option Role;
  ta_rounding : string;
  ta_tabIndex : Z;
  ta_tapStyle : option string;
  ta_children : PogProps
}.

Record BoxProps : Type := mkBox {
  box_alignItems : string;
  box_ariaHidden : option bool;
  box_display : string;
  box_height : string;
  box_marginEnd : Z;
  box_rounding : string
}.

Inductive Element : Type :=
| Div (className : string) (children : Element)
| Box (p : BoxProps) (children : Element)
| Tooltip (inline : bool) (text : string) (children : Element)
| TapArea (p : TapAreaProps).

(** [MaybeTooltip({ children, tooltipText })] *)
Definition MaybeTooltip (children : Element) (tooltipText : Nullable string) : Element :=
  match tooltipText with
  | Value text => if truthyString tooltipText then Tooltip true text children else children
  | Undefined | Null => children
  end.

Section Imports.

(** [import { ENTER, SPACE, TAB } from '../keyCodes'] and the CSS module
    class [styles.actionButtonContainer]: the imported modules are not part
    of the sources, their values are parameters. *)
Variables ENTER SPACE TAB : Z.
Variable actionButtonContainer : string.

(** The [onKeyDown] arrow function of the component. *)
Definition onKeyDown (keyCode : Z) : Eff unit :=
  when (includes [ENTER; SPACE] keyCode) onClick ;;
  when (negb (keyCode =? TAB)) preventDefault.

Definition onBlur : Eff unit := setFocused false.
Definition onFocus : Eff unit := setFocused true.
Definition onMouseEnter : Eff unit := setFocused true.
Definition onMouseLeave : Eff unit := setFocused false.

(** The element returned by one render, [focused] being the hook state. *)
Definition IconButtonEnd (props : Props) (focused : bool) : Element :=
  let hoverStyle := withDefault hoverDefault (hoverStyle props) in
  let pogPadding := withDefault 1 (pogPadding props) in
  Div actionButtonContainer
    (Box (mkBox "center" (accessibilityHidden props) "flex" "100%" 2 "circle")
       (MaybeTooltip
          (TapArea
             {| ta_accessibilityChecked := accessibilityChecked props;
                ta_accessibilityLabel := accessibilityLabel props;
                ta_onBlur := onBlur;
                ta_onFocus := onFocus;
                ta_onKeyDown := onKeyDown;
                ta_onMouseEnter := onMouseEnter;
                ta_onMouseLeave := onMouseLeave;
                ta_onTap := onClick;
                ta_role := role props;
                ta_rounding := "circle";
                ta_tabIndex := if truthyBool (accessibilityHidden props) then -1 else 0;
                ta_tapStyle := tapStyle props;
                ta_children :=
                  {| pog_accessibilityLabel := "";
                     pog_bgColor :=
                       if focused && HoverStyle_eqb hoverStyle hoverDefault
                       then lightGray else transparent;
                     pog_icon := icon props;
                     pog_iconColor := "darkGray";
                     pog_padding := pogPadding;
                     pog_size := "xs" |} |})
          (ofOption (tooltipText props)))).

End Imports.

End IconButtonEnd.

(** ** The mounted tap target: events, traces and user actions *)

Module TapTarget.
Import IconButtonEnd.

(** The DOM events the tap target reacts to. *)
Inductive DomEvent : Type :=
| Click
| KeyDown (keyCode : Z)
| Focus
| Blur
| MouseEnter
| MouseLeave.

(** The TapArea element of a rendered tree, whether one of its ancestors
    carries [aria-hidden=true], and the text of the Tooltip around it. *)
Fixpoint tapArea (e : Element) : TapAreaProps :=
  match e with
  | Div _ c | Box _ c | Tooltip _ _ c => tapArea c
  | TapArea p => p
  end.

Fixpoint ariaHidden (e : Element) : bool :=
  match e with
  | Box p c => truthyBool (box_ariaHidden p) || ariaHidden c
  | Div _ c | Tooltip _ _ c => ariaHidden c
  | TapArea _ => false
  end.

Fixpoint tooltip (e : Element) : option string :=
  match e with
  | Tooltip _ text _ => Some text
  | Div _ c | Box _ c => tooltip c
  | TapArea _ => None
  end.

Definition bgColor (e : Element) : BgColor :=
  pog_bgColor (ta_children (tapArea e)).

(** Modelled from the spec: TapArea (packages/gestalt/src/TapArea.tsx) is
    not among the sources. Following section 4.1 it hands a pointer activation
    to [onTap], a key-down to [onKeyDown] and each focus or hover transition
    to the callback of that name; every dispatch is a fresh event. *)
Definition dispatch (p : TapAreaProps) (e : DomEvent) : Eff unit :=
  newEvent ;;
  match e with
  | Click => ta_onTap p
  | KeyDown keyCode => ta_onKeyDown p keyCode
  | Focus => ta_onFocus p
  | Blur => ta_onBlur p
  | MouseEnter => ta_onMouseEnter p
  | MouseLeave => ta_onMouseLeave p
  end.

(** Where the user is, read off the history of events: the pointer is inside
    the element after a mouse-enter until the next mouse-leave, the element
    holds keyboard focus after a focus until the next blur. *)
Definition pointerAfter (inside : bool) (e : DomEvent) : bool :=
  match e with
  | MouseEnter => true
  | MouseLeave => false
  | _ => inside
  end.

Definition focusAfter (held : bool) (e : DomEvent) : bool :=
  match e with
  | Focus => true
  | Blur => false
  | _ => held
  end.

Definition pointerInside (es : list DomEvent) : bool := fold_left pointerAfter es false.
Definition holdsFocus (es : list DomEvent) : bool := fold_left focusAfter es false.

(** The focus and hover transitions, and the latest one of a history. *)
Definition isTransition (e : DomEvent) : bool :=
  match e with
  | Focus | Blur | MouseEnter | MouseLeave => true
  | Click | KeyDown _ => false
  end.

Definition lastTransition (es : list DomEvent) : option DomEvent :=
  hd_error (rev (filter isTransition es)).

(** One physical action of the user. *)
Inductive UserAction : Type :=
| PointerClick
| KeyPress (keyCode : Z).

Section Imports.

Variables ENTER SPACE TAB : Z.
Variable actionButtonContainer : string.
Variable props : Props.

(** The element on screen in a given store. *)
Definition rendered (s : Store) : Element :=
  IconButtonEnd ENTER SPACE TAB actionButtonContainer props (focused s).

(** An event goes to the handlers of the current render. *)
Definition step (e : DomEvent) : Eff unit :=
  fun s => dispatch (tapArea (rendered s)) e s.

Fixpoint run (es : list DomEvent) : Eff unit :=
  match es with
  | [] => ret tt
  | e :: es' => step e ;; run es'
  end.

(** Modelled from the spec: the browser and TapArea are not among the
    sources. A pointer click is one pointer activation. A key press is one
    key-down; the default browser action of Enter and Space on the tap target
    is a synthesized activation, which takes place only when the key-down
    handler has not prevented the default. The result lists the events that
    were delivered. *)
Definition perform (a : UserAction) : Eff (list DomEvent) :=
  match a with
  | PointerClick => step Click ;; ret [Click]
  | KeyPress keyCode =>
      step (KeyDown keyCode) ;;
      prevented <- getDefaultPrevented ;;
      if negb prevented && includes [ENTER; SPACE] keyCode
      then step Click ;; ret [KeyDown keyCode; Click]
      else ret [KeyDown keyCode]
  end.

(** The two activation paths of a delivered event. *)
Definition firesOnTap (e : DomEvent) : bool :=
  match e with
  | Click => true
  | _ => false
  end.

Definition firesKeyActivation (e : DomEvent) : bool :=
  match e with
  | KeyDown keyCode => includes [ENTER; SPACE] keyCode
  | _ => false
  end.

End Imports.

End TapTarget.

(** ** Checkbox *)

Module Checkbox.

#[local] Set Implicit Arguments.

Inductive LabelDisplay : Type := visible | hidden.
Inductive Size : Type := sm | md.

Section Opaque.

(** Values the component only passes on: the image node, the forwarded ref
    and the [onChange] / [onClick] callbacks. *)
Variables ReactNode Ref Callback : Type.

Record Props : Type := mkProps {
  checked : option bool;
  disabled : option bool;
  errorMessage : option string;
  helperText : option string;
  id : string;
  image : option ReactNode;
  indeterminate : option bool;
  label : option string;
  labelDisplay : option LabelDisplay;
  name : option string;
  onChange : Callback;
  onClick : option Callback;
  size : option Size
}.

(** The props written on [<InternalCheckbox>] and [<VRInternalCheckbox>]. *)
Record InternalProps : Type := mkInternal {
  i_ref : Ref;
  i_checked : bool;
  i_disabled : bool;
  i_errorMessage : option string;
  i_helperText : option string;
  i_id : string;
  i_image : option ReactNode;
  i_indeterminate : bool;
  i_label : option string;
  i_labelDisplay : LabelDisplay;
  i_name : option string;
  i_onChange : Callback;
  i_onClick : option Callback;
  i_size : Size
}.

Inductive Element : Type :=
| InternalCheckbox (p : InternalProps)
| VRInternalCheckbox (p : InternalProps).

(** [import useInExperiment from './useInExperiment']: the hook is not part
    of the sources; it is a parameter, applied to the two experiment names. *)
Variable useInExperiment : string -> string -> bool.

(** The function given to [forwardRef]. *)
Definition Checkbox (props : Props) (ref : Ref) : Element :=
  let checked := withDefault false (checked props) in
  let disabled := withDefault false (disabled props) in
  let indeterminate := withDefault false (indeterminate props) in
  let labelDisplay := withDefault visible (labelDisplay props) in
  let size := withDefault md (size props) in
  let isInVRExperiment :=
    useInExperiment "web_gestalt_visualrefresh" "web_gestalt_visualrefresh" in
  if isInVRExperiment then
    VRInternalCheckbox
      {| i_ref := ref;
         i_checked := checked;
         i_disabled := disabled;
         i_errorMessage := errorMessage props;
         i_helperText := helperText props;
         i_id := id props;
         i_image := image props;
         i_indeterminate := indeterminate;
         i_label := label props;
         i_labelDisplay := labelDisplay;
         i_name := name props;
         i_onChange := onChange props;
         i_onClick := onClick props;
         i_size := size |}
  else
    InternalCheckbox
      {| i_ref := ref;
         i_checked := checked;
         i_disabled := disabled;
         i_errorMessage := errorMessage props;
         i_helperText := helperText props;
         i_id := id props;
         i_image := image props;
         i_indeterminate := indeterminate;
         i_label := label props;
         i_labelDisplay := labelDisplay;
         i_name := name props;
         i_onChange := onChange props;
         i_onClick := onClick props;
         i_size := size |}.

(** The prop set an element was given, whichever implementation it is. *)
Definition propsOf (e : Element) : InternalProps :=
  match e with
  | InternalCheckbox p | VRInternalCheckbox p => p
  end.

Definition isStandard (e : Element) : bool :=
  match e with
  | InternalCheckbox _ => true
  | VRInternalCheckbox _ => false
  end.

End Opaque.

End Checkbox.

(** ** DatePicker *)

Module DatePicker.

#[local] Set Warnings "-register-all".
#[local] Set Implicit Arguments.

Inductive Direction : Type := up | right | down | left.
Inductive RangeSelector : Type := rangeStart | rangeEnd.
Inductive SelectList : Type := month | year.
Inductive Size : Type := md | lg.

(** [useState<boolean>(false)] *)
Record State : Type := mkState { showMobileCalendar : bool }.

Definition initial : State := mkState false.

(** The arrow functions of the component only set the hook state. *)
Definition Handler : Type := State -> State.

Definition setShowMobileCalendar (b : bool) : Handler := fun _ => mkState b.

Section Opaque.

(** Values the component only passes on. *)
Variables Date Locale Ref OnChange OnAnimationEnd Indexable : Type.

Record Props : Type := mkProps {
  disableMobileUI : option bool;
  disabled : option bool;
  errorMessage : option string;
  excludeDates : option (list Date);
  helperText : option string;
  id : string;
  idealDirection : option Direction;
  includeDates : option (list Date);
  label : option string;
  localeData : option Locale;
  maxDate : option Date;
  minDate : option Date;
  name : option string;
  nextRef : option Ref;
  onChange : OnChange;
  placeholder : option string;
  mobileOnAnimationEnd : option OnAnimationEnd;
  mobileZIndex : option Indexable;
  rangeEndDate : Nullable Date;
  rangeSelector : option RangeSelector;
  rangeStartDate : Nullable Date;
  readOnly : option bool;
  selectLists : option (list SelectList);
  size : option Size;
  value : Nullable Date;
  _overrideRangeDateFix : option bool
}.

(** The props written on the three [<InternalDatePicker>] elements; a prop
    that an element does not mention is [None] (or [Undefined]). *)
Record InternalProps : Type := mkInternal {
  i_ref : option Ref;
  i_overrideRangeDateFix : bool;
  i_disabled : option bool;
  i_errorMessage : option string;
  i_excludeDates : option (list Date);
  i_helperText : option string;
  i_id : string;
  i_idealDirection : Direction;
  i_includeDates : option (list Date);
  i_inline : option bool;
  i_inputOnly : option bool;
  i_label : option string;
  i_localeData : option Locale;
  i_maxDate : option Date;
  i_minDate : option Date;
  i_name : option string;
  i_nextRef : option Ref;
  i_onChange : OnChange;
  i_onFocus : option Handler;
  i_onSelect : option Handler;
  i_placeholder : option string;
  i_rangeEndDate : Nullable Date;
  i_rangeSelector : option RangeSelector;
  i_rangeStartDate : Nullable Date;
  i_readOnly : option bool;
  i_selectLists : option (list SelectList);
  i_size : option Size;
  i_value : Nullable Date
}.

Record SheetMobileProps : Type := mkSheet {
  sm_heading : string;
  sm_onAnimationEnd : option OnAnimationEnd;
  sm_onDismiss : Handler;
  sm_padding : string;
  sm_showDismissButton : bool;
  sm_size : string
}.

Record FlexProps : Type := mkFlex {
  flex_alignItems : string;
  flex_direction : string;
  flex_gap : Z;
  flex_justifyContent : string;
  flex_width : string
}.

Record ButtonProps : Type := mkButton {
  btn_accessibilityLabel : string;
  btn_color : string;
  btn_onClick : Handler;
  btn_size : string;
  btn_text : string
}.

(** The element tree. [DismissingElement] takes a render prop
    [({ onDismissStart }) => ...]. *)
Inductive Element : Type :=
| Fragment (children : list Element)
| InternalDatePicker (p : InternalProps)
| Layer (zIndex : option Indexable) (children : Element)
| SheetMobile (p : SheetMobileProps) (footer : Element) (children : Element)
| DismissingElement (children : Handler -> Element)
| Flex (p : FlexProps) (children : Element)
| Button (p : ButtonProps)
| null.

(** What the hooks other than [useState] return in one render:
    [useDeviceType()], [useDefaultLabel('DatePicker')] and the [useRef]
    object [innerInputRef]. The hooks are not part of the sources. *)
Record Hooks : Type := mkHooks {
  deviceType : string;
  accessibilityDismissButtonLabel : string;
  dismissButton : string;
  innerInputRef : Ref
}.

(** [{ ...props, disableMobileUI: v }] *)
Definition withDisableMobileUI (v : option bool) (props : Props) : Props :=
  {| disableMobileUI := v;
     disabled := disabled props;
     errorMessage := errorMessage props;
     excludeDates := excludeDates props;
     helperText := helperText props;
     id := id props;
     idealDirection := idealDirection props;
     includeDates := includeDates props;
     label := label props;
     localeData := localeData props;
     maxDate := maxDate props;
     minDate := minDate props;
     name := name props;
     nextRef := nextRef props;
     onChange := onChange props;
     placeholder := placeholder props;
     mobileOnAnimationEnd := mobileOnAnimationEnd props;
     mobileZIndex := mobileZIndex props;
     rangeEndDate := rangeEndDate props;
     rangeSelector := rangeSelector props;
     rangeStartDate := rangeStartDate props;
     readOnly := readOnly props;
     selectLists := selectLists props;
     size := size props;
     value := value props;
     _overrideRangeDateFix := _overrideRangeDateFix props |}.

Definition sheetFlex : FlexProps := mkFlex "center" "column" 4 "center" "100%".

(** The function given to [forwardRef], [state] being the hook state. *)
Definition DatePicker (props : Props) (hooks : Hooks) (state : State) : Element :=
  let disableMobileUI := withDefault false (disableMobileUI props) in
  let idealDirection := withDefault down (idealDirection props) in
  let _overrideRangeDateFix := withDefault false (_overrideRangeDateFix props) in
  let isMobile := String.eqb (deviceType hooks) "mobile" in
  if isMobile && negb disableMobileUI then
    Fragment
      [ InternalDatePicker
          {| i_ref := Some (innerInputRef hooks);
             i_overrideRangeDateFix := _overrideRangeDateFix;
             i_disabled := disabled props;
             i_errorMessage := errorMessage props;
             i_excludeDates := excludeDates props;
             i_helperText := helperText props;
             i_id := id props;
             i_idealDirection := idealDirection;
             i_includeDates := includeDates props;
             i_inline := None;
             i_inputOnly := Some true;
             i_label := label props;
             i_localeData := localeData props;
             i_maxDate := maxDate props;
             i_minDate := minDate props;
             i_name := name props;
             i_nextRef := nextRef props;
             i_onChange := onChange props;
             i_onFocus := Some (setShowMobileCalendar true);
             i_onSelect := None;
             i_placeholder := placeholder props;
             i_rangeEndDate := rangeEndDate props;
             i_rangeSelector := rangeSelector props;
             i_rangeStartDate := rangeStartDate props;
             i_readOnly := readOnly props;
             i_selectLists := selectLists props;
             i_size := size props;
             i_value := value props |};
        if showMobileCalendar state then
          Layer (mobileZIndex props)
            (SheetMobile
               {| sm_heading := "";
                  sm_onAnimationEnd := mobileOnAnimationEnd props;
                  sm_onDismiss := setShowMobileCalendar false;
                  sm_padding := "none";
                  sm_showDismissButton := false;
                  sm_size := "auto" |}
               (DismissingElement (fun onDismissStart =>
                  Flex sheetFlex
                    (Button
                       {| btn_accessibilityLabel := accessibilityDismissButtonLabel hooks;
                          btn_color := "gray";
                          btn_onClick := fun s => onDismissStart s;
                          btn_size := "lg";
                          btn_text := dismissButton hooks |})))
               (DismissingElement (fun onDismissStart =>
                  Flex sheetFlex
                    (InternalDatePicker
                       {| i_ref := None;
                          i_overrideRangeDateFix := _overrideRangeDateFix;
                          i_disabled := None;
                          i_errorMessage := errorMessage props;
                          i_excludeDates := excludeDates props;
                          i_helperText := None;
                          i_id := id props;
                          i_idealDirection := idealDirection;
                          i_includeDates := includeDates props;
                          i_inline := Some true;
                          i_inputOnly := None;
                          i_label := None;
                          i_localeData := localeData props;
                          i_maxDate := maxDate props;
                          i_minDate := minDate props;
                          i_name := None;
                          i_nextRef := nextRef props;
                          i_onChange := onChange props;
                          i_onFocus := None;
                          i_onSelect := Some (fun s => onDismissStart s);
                          i_placeholder := None;
                          i_rangeEndDate := rangeEndDate props;
                          i_rangeSelector := rangeSelector props;
                          i_rangeStartDate := rangeStartDate props;
                          i_readOnly := None;
                          i_selectLists := selectLists props;
                          i_size := size props;
                          i_value := value props |}))))
        else null ]
  else
    InternalDatePicker
      {| i_ref := Some (innerInputRef hooks);
         i_overrideRangeDateFix := _overrideRangeDateFix;
         i_disabled := disabled props;
         i_errorMessage := errorMessage props;
         i_excludeDates := excludeDates props;
         i_helperText := helperText props;
         i_id := id props;
         i_idealDirection := idealDirection;
         i_includeDates := includeDates props;
         i_inline := None;
         i_inputOnly := None;
         i_label := label props;
         i_localeData := localeData props;
         i_maxDate := maxDate props;
         i_minDate := minDate props;
         i_name := name props;
         i_nextRef := nextRef props;
         i_onChange := onChange props;
         i_onFocus := None;
         i_onSelect := None;
         i_placeholder := placeholder props;
         i_rangeEndDate := rangeEndDate props;
         i_rangeSelector := rangeSelector props;
         i_rangeStartDate := rangeStartDate props;
         i_readOnly := readOnly props;
         i_selectLists := selectLists props;
         i_size := size props;
         i_value := value props |}.

(** *** The mounted tree and the user's events *)

(** A component on screen that the user can act on. *)
Inductive Mounted : Type :=
| MPicker (p : InternalProps)
| MSheet (p : SheetMobileProps)
| MButton (p : ButtonProps).

(** Modelled from the spec: SheetMobile (packages/gestalt/src/SheetMobile.tsx)
    is not among the sources. Following section 4.3, the [onDismissStart]
    that a sheet hands to its [DismissingElement]s is an explicit dismissal:
    it ends with the sheet's [onDismiss] (the closing animation in between is
    not modelled). [mounted] lists the components of an element tree in
    document order, every render prop applied to the [onDismissStart] of the
    enclosing sheet. *)
Fixpoint mounted (onDismissStart : Handler) (e : Element) : list Mounted :=
  match e with
  | Fragment children => flat_map (mounted onDismissStart) children
  | InternalDatePicker p => [MPicker p]
  | Layer _ children => mounted onDismissStart children
  | SheetMobile p footer children =>
      MSheet p :: mounted (sm_onDismiss p) footer ++ mounted (sm_onDismiss p) children
  | DismissingElement children => mounted onDismissStart (children onDismissStart)
  | Flex _ children => mounted onDismissStart children
  | Button p => [MButton p]
  | null => []
  end.

(** Outside a sheet there is nothing to dismiss. *)
Definition screen (e : Element) : list Mounted := mounted (fun s => s) e.

Definition isSheet (m : Mounted) : bool :=
  match m with
  | MSheet _ => true
  | _ => false
  end.

Definition isPicker (m : Mounted) : bool :=
  match m with
  | MPicker _ => true
  | _ => false
  end.

(** Is a SheetMobile rendered? *)
Definition sheetRendered (e : Element) : bool := existsb isSheet (screen e).

(** The [InternalDatePicker]s of a tree. *)
Definition pickers (e : Element) : list InternalProps :=
  flat_map (fun m => match m with MPicker p => [p] | _ => [] end) (screen e).

(** The component at a position of the screen, if it is of the given kind. *)
Definition pickerAt (scr : list Mounted) (n : nat) : option InternalProps :=
  match nth_error scr n with
  | Some (MPicker p) => Some p
  | _ => None
  end.

Definition buttonAt (scr : list Mounted) (n : nat) : option ButtonProps :=
  match nth_error scr n with
  | Some (MButton p) => Some p
  | _ => None
  end.

Definition sheetAt (scr : list Mounted) (n : nat) : option SheetMobileProps :=
  match nth_error scr n with
  | Some (MSheet p) => Some p
  | _ => None
  end.

(** What the user does, to the component at a position of the screen: give
    focus to a date field, select a date in a calendar, activate a button,
    close a sheet by its own gesture. *)
Inductive UserEvent : Type :=
| FocusField (target : nat)
| SelectDate (target : nat)
| ClickButton (target : nat)
| CloseSheet (target : nat).

Definition call (h : option Handler) : Handler :=
  match h with
  | Some f => f
  | None => fun s => s
  end.

(** Modelled from the spec: InternalDatePicker and Button are not among the
    sources. A date field calls its [onFocus] when it receives focus, a
    calendar its [onSelect] when a date is selected, a button its [onClick]
    when activated, a sheet its [onDismiss] when closed. An event aimed at a
    position that holds no such component changes nothing. *)
Definition handlerOf (scr : list Mounted) (ev : UserEvent) : Handler :=
  match ev with
  | FocusField n =>
      match pickerAt scr n with
      | Some p => call (i_onFocus p)
      | None => fun s => s
      end
  | SelectDate n =>
      match pickerAt scr n with
      | Some p => call (i_onSelect p)
      | None => fun s => s
      end
  | ClickButton n =>
      match buttonAt scr n with
      | Some p => btn_onClick p
      | None => fun s => s
      end
  | CloseSheet n =>
      match sheetAt scr n with
      | Some p => sm_onDismiss p
      | None => fun s => s
      end
  end.

Section Instance.

Variable props : Props.
Variable hooks : Hooks.

(** An event goes to the handlers of the current render. *)
Definition step (state : State) (ev : UserEvent) : State :=
  handlerOf (screen (DatePicker props hooks state)) ev state.

Definition run (evs : list UserEvent) (state : State) : State :=
  fold_left step evs state.

End Instance.

End Opaque.

End DatePicker.

(** ** Prop updates and views used to state further properties *)

Module CheckboxDefaults.
Import Checkbox.

(** The props with every destructuring default of [Checkbox] written out. *)
Definition fillDefaults {ReactNode Callback : Type}
    (props : Props ReactNode Callback) : Props ReactNode Callback :=
  {| checked := Some (withDefault false (checked props));
     disabled := Some (withDefault false (disabled props));
     errorMessage := errorMessage props;
     helperText := helperText props;
     id := id props;
     image := image props;
     indeterminate := Some (withDefault false (indeterminate props));
     label := label props;
     labelDisplay := Some (withDefault visible (labelDisplay props));
     name := name props;
     onChange := onChange props;
     onClick := onClick props;
     size := Some (withDefault md (size props)) |}.

End CheckboxDefaults.

Module DatePickerFields.
Import DatePicker.

(** [{ ...p, inputOnly: undefined, onFocus: undefined }] *)
Definition plainField {Date Locale Ref OnChange : Type}
    (p : InternalProps Date Locale Ref OnChange) : InternalProps Date Locale Ref OnChange :=
  {| i_ref := i_ref p;
     i_overrideRangeDateFix := i_overrideRangeDateFix p;
     i_disabled := i_disabled p;
     i_errorMessage := i_errorMessage p;
     i_excludeDates := i_excludeDates p;
     i_helperText := i_helperText p;
     i_id := i_id p;
     i_idealDirection := i_idealDirection p;
     i_includeDates := i_includeDates p;
     i_inline := i_inline p;
     i_inputOnly := None;
     i_label := i_label p;
     i_localeData := i_localeData p;
     i_maxDate := i_maxDate p;
     i_minDate := i_minDate p;
     i_name := i_name p;
     i_nextRef := i_nextRef p;
     i_onChange := i_onChange p;
     i_onFocus := None;
     i_onSelect := i_onSelect p;
     i_placeholder := i_placeholder p;
     i_rangeEndDate := i_rangeEndDate p;
     i_rangeSelector := i_rangeSelector p;
     i_rangeStartDate := i_rangeStartDate p;
     i_readOnly := i_readOnly p;
     i_selectLists := i_selectLists p;
     i_size := i_size p;
     i_value := i_value p |}.

End DatePickerFields.

(** ** The Tooltip positioning example of the documentation
       (docs/examples/tooltip/properPositioningExample.tsx) *)

Module PositioningExample.

#[local] Set Warnings "-register-all".

(** The three [useState<string | null>(null)] hooks; [None] is [null]. *)
Record State : Type := mkState {
  content : option string;
  claimed : option string;
  device : option string
}.

Definition initial : State := mkState None None None.

Definition Handler : Type := State -> State.

Definition setContent (v : string) : Handler :=
  fun s => mkState (Some v) (claimed s) (device s).
Definition setClaimed (v : string) : Handler :=
  fun s => mkState (content s) (Some v) (device s).
Definition setDevice (v : string) : Handler :=
  fun s => mkState (content s) (claimed s) (Some v).

(** [state === 'literal'] on a [string | null]. *)
Definition strictEq (v : option string) (literal : string) : bool :=
  match v with
  | Some s => String.eqb s literal
  | None => false
  end.

Record Gap : Type := mkGap { gap_column : Z; gap_row : Z }.

Record FlexProps : Type := mkFlex {
  flex_alignItems : option string;
  flex_direction : option string;
  flex_gap : Gap;
  flex_width : option Z
}.

Record BoxProps : Type := mkBox {
  box_alignItems : string;
  box_display : string;
  box_height : string;
  box_justifyContent : string;
  box_padding : Z
}.

Record RadioButtonProps : Type := mkRadio {
  rb_checked : bool;
  rb_id : string;
  rb_label : string;
  rb_name : string;
  rb_onChange : Handler;
  rb_value : string
}.

Inductive Element : Type :=
| Box (p : BoxProps) (children : list Element)
| Flex (p : FlexProps) (children : list Element)
| Text (size weight : string) (children : string)
| Tooltip (idealDirection text : string) (children : Element)
| IconButton (accessibilityLabel bgColor icon iconColor : string)
| Icon (accessibilityLabel color icon : string)
| RadioGroup (id legend : string) (children : list Element)
| RadioButton (p : RadioButtonProps).

Definition column (gap : Z) : FlexProps :=
  mkFlex None (Some "column"%string) (mkGap gap 0) None.

Definition heading : FlexProps :=
  mkFlex (Some "center"%string) None (mkGap 0 1) None.

(** [Example()], [state] holding the three hook states. *)
Definition Example (state : State) : Element :=
  Box (mkBox "center" "flex" "100%" "center" 8)
    [ Flex (mkFlex None (Some "column"%string) (mkGap 4 0) (Some 300))
        [ Flex (column 2)
            [ Flex heading
                [ Text "400" "bold" "Content type";
                  Tooltip "right"
                    "See stats about different types of content created by you and/or others on Pinterest. Filter to get more details on your organic (not an ad) and paid (promoted as an ad) content."
                    (IconButton "Information" "white" "info-circle" "darkGray") ];
              RadioGroup "Content" "Content"
                [ RadioButton
                    {| rb_checked := strictEq (content state) "all";
                       rb_id := "allcontent"; rb_label := "All"; rb_name := "content";
                       rb_onChange := fun s => setContent "all" s;
                       rb_value := "all" |};
                  RadioButton
                    {| rb_checked := strictEq (content state) "organic";
                       rb_id := "organic"; rb_label := "Organic"; rb_name := "content";
                       rb_onChange := fun s => setContent "organic" s;
                       rb_value := "organic" |};
                  RadioButton
                    {| rb_checked := strictEq (content state) "paid";
                       rb_id := "paid"; rb_label := "Paid and earned"; rb_name := "content";
                       rb_onChange := fun s => setContent "paid" s;
                       rb_value := "paid" |} ] ];
          Flex (column 2)
            [ Flex heading
                [ Text "400" "bold" "Claimed account";
                  Tooltip "right"
                    "See stats for Pins linked to your claimed accounts like websites, Etsy, Instagram or Youtube. The Other Pins category includes Pins you’ve published or saved that don’t link to any of your claimed accounts."
                    (Icon "Information" "default" "info-circle") ];
              RadioGroup "pins" "Pins status"
                [ RadioButton
                    {| rb_checked := strictEq (claimed state) "all";
                       rb_id := "allclaimed"; rb_label := "All Pins"; rb_name := "claimed";
                       rb_onChange := fun s => setClaimed "all" s;
                       rb_value := "all" |};
                  RadioButton
                    {| rb_checked := strictEq (claimed state) "instagram";
                       rb_id := "instagram"; rb_label := "Instagram"; rb_name := "claimed";
                       rb_onChange := fun s => setClaimed "instagram" s;
                       rb_value := "instagram" |};
                  RadioButton
                    {| rb_checked := strictEq (claimed state) "other";
                       rb_id := "other"; rb_label := "Other pins"; rb_name := "claimed";
                       rb_onChange := fun s => setClaimed "other" s;
                       rb_value := "other" |} ] ];
          Flex (column 2)
            [ Flex heading
                [ Text "400" "bold" "Device";
                  Tooltip "right"
                    "See stats for the different devices your Pinterest traffic is coming from."
                    (Icon "Information" "default" "info-circle") ];
              RadioGroup "pins" "Pins status"
                [ RadioButton
                    {| rb_checked := strictEq (device state) "all";
                       rb_id := "alldevices"; rb_label := "All"; rb_name := "device";
                       rb_onChange := fun s => setDevice "all" s;
                       rb_value := "all" |};
                  RadioButton
                    {| rb_checked := strictEq (device state) "mobile";
                       rb_id := "mobile"; rb_label := "Mobile"; rb_name := "device";
                       rb_onChange := fun s => setDevice "mobile" s;
                       rb_value := "mobile" |};
                  RadioButton
                    {| rb_checked := strictEq (device state) "desktop";
                       rb_id := "desktop"; rb_label := "Desktop"; rb_name := "device";
                       rb_onChange := fun s => setDevice "desktop" s;
                       rb_value := "desktop" |};
                  RadioButton
                    {| rb_checked := strictEq (device state) "tablet";
                       rb_id := "tablet"; rb_label := "Tablet"; rb_name := "device";
                       rb_onChange := fun s => setDevice "tablet" s;
                       rb_value := "tablet" |} ] ] ] ].

(** The radio buttons of a tree in document order, and grouped by the
    RadioGroup that holds them. *)
Fixpoint radioButtons (e : Element) : list RadioButtonProps :=
  match e with
  | Box _ children | Flex _ children | RadioGroup _ _ children =>
      flat_map radioButtons children
  | Tooltip _ _ child => radioButtons child
  | RadioButton p => [p]
  | Text _ _ _ | IconButton _ _ _ _ | Icon _ _ _ => []
  end.

Fixpoint radioGroups (e : Element) : list (list RadioButtonProps) :=
  match e with
  | RadioGroup _ _ children => [flat_map radioButtons children]
  | Box _ children | Flex _ children => flat_map radioGroups children
  | Tooltip _ _ child => radioGroups child
  | RadioButton _ | Text _ _ _ | IconButton _ _ _ _ | Icon _ _ _ => []
  end.

(** How many buttons of a group are checked. *)
Definition checkedCount (group : list RadioButtonProps) : nat :=
  List.length (filter rb_checked group).

End PositioningExample.

(** ** Sample instances

    A clear button of a text field, a checkbox, and a date field on a phone
    and on a desktop; the key codes are those of the browser (Enter 13,
    Space 32, Tab 9). *)

Definition sampleIconButton : IconButtonEnd.Props :=
  IconButtonEnd.mkProps None (Some true) (Some "Clear"%string) None IconButtonEnd.cancel
    None None None (Some "Clear the field"%string).

Definition sampleCheckbox : Checkbox.Props unit nat :=
  Checkbox.mkProps (Some true) (Some false) None None "terms" None (Some true)
    (Some "Accept"%string) None None 0%nat None None.

Definition sampleDatePicker : DatePicker.Props Z string nat unit unit Z :=
  DatePicker.mkProps None None None None None "date" None None (Some "Date"%string)
    None None None None None tt None None None Undefined None Undefined None None None
    Undefined None.

Definition phone : DatePicker.Hooks nat := DatePicker.mkHooks "mobile" "Dismiss" "Close" 0%nat.
Definition desktop : DatePicker.Hooks nat := DatePicker.mkHooks "desktop" "Dismiss" "Close" 0%nat.

(** * Properties *)

(** ** IconButtonEnd: the key-down handler, focus and hover, accessibility *)

Section IconButtonEndFacts.
Import IconButtonEnd TapTarget.

Variables ENTER SPACE TAB : Z.
Variable actionButtonContainer : string.

#[local] Abbreviation IconButtonEnd :=
  (IconButtonEnd.IconButtonEnd ENTER SPACE TAB actionButtonContainer).
#[local] Abbreviation onKeyDown := (IconButtonEnd.onKeyDown ENTER SPACE TAB).
#[local] Abbreviation rendered := (TapTarget.rendered ENTER SPACE TAB actionButtonContainer).
#[local] Abbreviation step := (TapTarget.step ENTER SPACE TAB actionButtonContainer).
#[local] Abbreviation run := (TapTarget.run ENTER SPACE TAB actionButtonContainer).
#[local] Abbreviation perform := (TapTarget.perform ENTER SPACE TAB actionButtonContainer).

Lemma tapArea_MaybeTooltip (children : Element) (t : Nullable string) :
  tapArea (MaybeTooltip children t) = tapArea children.
Proof.
  destruct t as [| |text]; simpl; trivial.
  destruct (negb (text =? ""))%string; reflexivity.
Qed.

Lemma ariaHidden_MaybeTooltip (children : Element) (t : Nullable string) :
  ariaHidden (MaybeTooltip children t) = ariaHidden children.
Proof.
  destruct t as [| |text]; simpl; trivial.
  destruct (negb (text =? ""))%string; reflexivity.
Qed.

(** The handlers of the rendered TapArea are the component's arrow functions,
    whatever the props and the hook state. *)
Lemma rendered_handlers (props : Props) (f : bool) :
  let p := tapArea (IconButtonEnd props f) in
  ta_onKeyDown p = onKeyDown /\ ta_onTap p = onClick /\
  ta_onFocus p = onFocus /\ ta_onBlur p = onBlur /\
  ta_onMouseEnter p = onMouseEnter /\ ta_onMouseLeave p = onMouseLeave.
Proof.
  unfold IconButtonEnd.IconButtonEnd; simpl.
  rewrite tapArea_MaybeTooltip; simpl. repeat split.
Qed.

Lemma includes_activation_keys (keyCode : Z) :
  includes [ENTER; SPACE] keyCode = true <-> keyCode = ENTER \/ keyCode = SPACE.
Proof.
  unfold includes; simpl. rewrite !orb_true_iff, !Z.eqb_eq. intuition discriminate.
Qed.

Lemma includes_other_key (keyCode : Z) :
  keyCode <> ENTER -> keyCode <> SPACE -> includes [ENTER; SPACE] keyCode = false.
Proof.
  intros He Hs. destruct (includes [ENTER; SPACE] keyCode) eqn:E; trivial.
  apply includes_activation_keys in E. tauto.
Qed.

(** The three cases of the key-down handler, as store transformers. *)
Lemma onKeyDown_activation (keyCode : Z) (s : Store) :
  includes [ENTER; SPACE] keyCode = true -> keyCode <> TAB ->
  onKeyDown keyCode s = (tt, mkStore (focused s) (S (onClickCalls s)) true).
Proof.
  intros Hin Htab. apply Z.eqb_neq in Htab.
  unfold IconButtonEnd.onKeyDown, bind, when. rewrite Hin, Htab. reflexivity.
Qed.

Lemma onKeyDown_tab (s : Store) :
  includes [ENTER; SPACE] TAB = false -> onKeyDown TAB s = (tt, s).
Proof.
  intros Hin. unfold IconButtonEnd.onKeyDown, bind, when.
  rewrite Hin, Z.eqb_refl. reflexivity.
Qed.

Lemma onKeyDown_other (keyCode : Z) (s : Store) :
  includes [ENTER; SPACE] keyCode = false -> keyCode <> TAB ->
  onKeyDown keyCode s = (tt, mkStore (focused s) (onClickCalls s) true).
Proof.
  intros Hin Htab. apply Z.eqb_neq in Htab.
  unfold IconButtonEnd.onKeyDown, bind, when. rewrite Hin, Htab. reflexivity.
Qed.

(** C1. A key-down handed to the handler of the rendered TapArea: on Enter or
    Space, [onClick] is called exactly once and the default is prevented; on
    Tab, nothing is called and the store, with its [defaultPrevented] flag, is
    left as it was; on any other key the default is prevented and [onClick]
    is not called. The key codes are those of the keyCodes module, where Tab
    is neither Enter nor Space. *)
Theorem keydown_activation_contract (props : Props) (f : bool) (keyCode : Z) (s : Store) :
  ENTER <> TAB -> SPACE <> TAB ->
  let handler := ta_onKeyDown (tapArea (IconButtonEnd props f)) in
  (keyCode = ENTER \/ keyCode = SPACE ->
     exec (handler keyCode) s = mkStore (focused s) (S (onClickCalls s)) true) /\
  (keyCode = TAB -> exec (handler keyCode) s = s) /\
  (keyCode <> ENTER -> keyCode <> SPACE -> keyCode <> TAB ->
     exec (handler keyCode) s = mkStore (focused s) (onClickCalls s) true).
Proof.
  intros He Hs handler.
  assert (Hh : handler = onKeyDown) by apply rendered_handlers.
  rewrite Hh; unfold exec. split; [|split].
  - intros Hk. rewrite onKeyDown_activation; trivial.
    + now apply includes_activation_keys.
    + destruct Hk; congruence.
  - intros ->. rewrite onKeyDown_tab; trivial.
    apply includes_other_key; congruence.
  - intros H1 H2 H3. rewrite onKeyDown_other; trivial.
    now apply includes_other_key.
Qed.

(** C8. The focus, blur, mouse-enter and mouse-leave handlers of the rendered
    TapArea never call [onClick] (nor touch the event): each one only sets
    the [focused] flag that drives the visual feedback. *)
Theorem transitions_do_not_activate (props : Props) (f : bool) (s : Store) :
  let p := tapArea (IconButtonEnd props f) in
  exec (ta_onFocus p) s = mkStore true (onClickCalls s) (defaultPrevented s) /\
  exec (ta_onBlur p) s = mkStore false (onClickCalls s) (defaultPrevented s) /\
  exec (ta_onMouseEnter p) s = mkStore true (onClickCalls s) (defaultPrevented s) /\
  exec (ta_onMouseLeave p) s = mkStore false (onClickCalls s) (defaultPrevented s).
Proof.
  intros p.
  destruct (rendered_handlers props f) as (_ & _ & Hf & Hb & Hme & Hml).
  fold p in Hf, Hb, Hme, Hml. rewrite Hf, Hb, Hme, Hml.
  repeat split.
Qed.

(** *** Histories of events *)

Lemma step_store (props : Props) (e : DomEvent) (s : Store) :
  exec (step props e) s =
  match e with
  | Click => mkStore (focused s) (S (onClickCalls s)) false
  | KeyDown keyCode => exec (onKeyDown keyCode) (mkStore (focused s) (onClickCalls s) false)
  | Focus | MouseEnter => mkStore true (onClickCalls s) false
  | Blur | MouseLeave => mkStore false (onClickCalls s) false
  end.
Proof.
  unfold TapTarget.step, dispatch, TapTarget.rendered.
  destruct (rendered_handlers props (focused s)) as (Hk & Ht & Hf & Hb & Hme & Hml).
  cbv zeta in Hk, Ht, Hf, Hb, Hme, Hml.
  destruct e; unfold exec, bind, newEvent;
    rewrite ?Hk, ?Ht, ?Hf, ?Hb, ?Hme, ?Hml; reflexivity.
Qed.

Lemma onKeyDown_focused (keyCode : Z) (s : Store) :
  focused (exec (onKeyDown keyCode) s) = focused s.
Proof.
  unfold exec, IconButtonEnd.onKeyDown, bind, when.
  destruct (includes [ENTER; SPACE] keyCode), (negb (keyCode =? TAB)); reflexivity.
Qed.

Lemma step_focused (props : Props) (e : DomEvent) (s : Store) :
  focused (exec (step props e) s) =
  match e with
  | Focus | MouseEnter => true
  | Blur | MouseLeave => false
  | Click | KeyDown _ => focused s
  end.
Proof.
  rewrite step_store. destruct e; trivial. now rewrite onKeyDown_focused.
Qed.

Lemma run_snoc (props : Props) (es : list DomEvent) (e : DomEvent) (s : Store) :
  exec (run props (es ++ [e])) s = exec (step props e) (exec (run props es) s).
Proof.
  revert s. induction es as [|e' es IH]; intros s; simpl.
  - unfold exec, bind, ret; simpl. destruct (step props e s) as [[] s']. reflexivity.
  - unfold exec, bind in *. destruct (step props e' s) as [[] s']; simpl. apply IH.
Qed.

Lemma lastTransition_snoc (es : list DomEvent) (e : DomEvent) :
  lastTransition (es ++ [e]) = if isTransition e then Some e else lastTransition es.
Proof.
  unfold lastTransition. rewrite filter_app; simpl.
  destruct (isTransition e); [|now rewrite app_nil_r].
  rewrite rev_app_distr. reflexivity.
Qed.

(** The hook state is decided by the latest focus or hover transition. *)
Lemma focused_after_run (props : Props) (es : list DomEvent) (s : Store) :
  focused (exec (run props es) s) =
  match lastTransition es with
  | Some Focus | Some MouseEnter => true
  | Some _ => false
  | None => focused s
  end.
Proof.
  induction es as [|e es IH] using rev_ind; [reflexivity|].
  rewrite run_snoc, step_focused, lastTransition_snoc.
  destruct e; simpl; trivial.
Qed.

Lemma latest_focus_held (es : list DomEvent) :
  lastTransition es = Some Focus -> holdsFocus es = true.
Proof.
  unfold holdsFocus.
  induction es as [|e es IH] using rev_ind; [discriminate|].
  rewrite lastTransition_snoc, fold_left_app; simpl.
  destruct e; simpl; trivial; discriminate.
Qed.

Lemma latest_enter_inside (es : list DomEvent) :
  lastTransition es = Some MouseEnter -> pointerInside es = true.
Proof.
  unfold pointerInside.
  induction es as [|e es IH] using rev_ind; [discriminate|].
  rewrite lastTransition_snoc, fold_left_app; simpl.
  destruct e; simpl; trivial; discriminate.
Qed.

Lemma bgColor_rendered (props : Props) (s : Store) :
  bgColor (rendered props s) =
  if focused s && HoverStyle_eqb (withDefault hoverDefault (hoverStyle props)) hoverDefault
  then lightGray else transparent.
Proof.
  unfold bgColor, TapTarget.rendered, IconButtonEnd.IconButtonEnd; simpl.
  rewrite tapArea_MaybeTooltip. reflexivity.
Qed.

(** C4, as amended. After any history of events on a freshly mounted
    IconButtonEnd the background is lightGray exactly when hoverStyle is
    'default' and the latest focus or hover transition was a focus or a
    mouse-enter, and transparent otherwise. So it is lightGray only when the
    pointer is inside or the element holds focus, and never with hoverStyle
    'none'; a blur or a mouse-leave clears it whatever the other condition. *)
Theorem background_follows_latest_transition (props : Props) (es : list DomEvent) :
  let bg := bgColor (rendered props (exec (run props es) mount)) in
  (bg = lightGray <->
     withDefault hoverDefault (hoverStyle props) = hoverDefault /\
     (lastTransition es = Some Focus \/ lastTransition es = Some MouseEnter)) /\
  (bg <> lightGray -> bg = transparent) /\
  (bg = lightGray -> pointerInside es = true \/ holdsFocus es = true).
Proof.
  intros bg.
  assert (Hiff : bg = lightGray <->
     withDefault hoverDefault (hoverStyle props) = hoverDefault /\
     (lastTransition es = Some Focus \/ lastTransition es = Some MouseEnter)).
  { subst bg. rewrite bgColor_rendered, focused_after_run; simpl.
    destruct (withDefault hoverDefault (hoverStyle props));
      destruct (lastTransition es) as [[]|]; simpl;
      split; try discriminate; try tauto;
      intros [H1 [H2|H2]]; discriminate. }
  split; [exact Hiff|split].
  - destruct bg; [congruence|reflexivity].
  - intros H. apply Hiff in H as [_ [H|H]].
    + right. now apply latest_focus_held.
    + left. now apply latest_enter_inside.
Qed.

(** C6. Rendered with accessibilityHidden=true, the TapArea has tab index -1
    and lies inside the Box that carries aria-hidden=true. *)
Theorem hidden_tap_target (props : Props) (f : bool) :
  accessibilityHidden props = Some true ->
  ta_tabIndex (tapArea (IconButtonEnd props f)) = -1 /\
  ariaHidden (IconButtonEnd props f) = true.
Proof.
  intros H. unfold IconButtonEnd.IconButtonEnd; simpl.
  rewrite tapArea_MaybeTooltip, H. simpl. auto.
Qed.

(** C10. MaybeTooltip wraps its children in a Tooltip showing the text when
    tooltipText is a non-empty string and returns them bare when it is
    undefined, null or the empty string; in IconButtonEnd a Tooltip is
    rendered exactly in the first case, and the TapArea inside does not
    depend on tooltipText. *)
Theorem tooltip_iff_truthy_text
    (children : Element) (t : Nullable string) (f : bool)
    (aChecked aHidden : option bool) (aLabel : option string) (hs : option HoverStyle)
    (ic : Icon) (pad : option Z) (r : option Role) (ts tip tip' : option string) :
  (forall text, t = Value text -> text <> ""%string ->
     MaybeTooltip children t = Tooltip true text children) /\
  (t = Undefined \/ t = Null \/ t = Value ""%string -> MaybeTooltip children t = children) /\
  (forall text,
     tooltip (IconButtonEnd (mkProps aChecked aHidden aLabel hs ic pad r ts tip) f) = Some text
     <-> tip = Some text /\ text <> ""%string) /\
  tapArea (IconButtonEnd (mkProps aChecked aHidden aLabel hs ic pad r ts tip) f) =
  tapArea (IconButtonEnd (mkProps aChecked aHidden aLabel hs ic pad r ts tip') f).
Proof.
  split; [|split; [|split]].
  - intros text -> Hne. simpl.
    apply String.eqb_neq in Hne. rewrite Hne. reflexivity.
  - intros [-> | [-> | ->]]; reflexivity.
  - intros text. unfold IconButtonEnd.IconButtonEnd; simpl.
    destruct tip as [s|]; simpl.
    + destruct (String.eqb_spec s ""); simpl.
      * subst s. split; [discriminate|]. intros [[= <-] Hne]. now elim Hne.
      * split; [intros [= ->]; auto|]. intros [[= ->] _]. reflexivity.
    + split; [discriminate|]. intros [H _]. discriminate.
  - unfold IconButtonEnd.IconButtonEnd; simpl.
    now rewrite !tapArea_MaybeTooltip.
Qed.

(** *** One activation for one action *)

Lemma step_result (props : Props) (e : DomEvent) (s : Store) :
  step props e s = (tt, exec (step props e) s).
Proof.
  unfold exec. destruct (step props e s) as [[] s']. reflexivity.
Qed.

Lemma perform_click (props : Props) (s : Store) :
  perform props PointerClick s =
  ([Click], mkStore (focused s) (S (onClickCalls s)) false).
Proof.
  unfold TapTarget.perform, bind. rewrite step_result, step_store. reflexivity.
Qed.

Lemma perform_activation_key (props : Props) (keyCode : Z) (s : Store) :
  includes [ENTER; SPACE] keyCode = true -> keyCode <> TAB ->
  perform props (KeyPress keyCode) s =
  ([KeyDown keyCode], mkStore (focused s) (S (onClickCalls s)) true).
Proof.
  intros Hin Htab. unfold TapTarget.perform, bind.
  rewrite step_result, step_store. unfold exec.
  rewrite onKeyDown_activation; trivial.
Qed.

(** C5. A pointer click, an Enter press and a Space press each call [onClick]
    exactly once, and the events delivered for one action never include both
    a pointer activation ([onTap]) and an activating key-down: the key-down
    handler prevents the default of the keys it activates on, so no
    activation is synthesized for them. *)
Theorem one_activation_per_action (props : Props) (a : UserAction) (s : Store) :
  ENTER <> TAB -> SPACE <> TAB ->
  a = PointerClick \/ a = KeyPress ENTER \/ a = KeyPress SPACE ->
  onClickCalls (exec (perform props a) s) = S (onClickCalls s) /\
  existsb firesOnTap (fst (perform props a s)) &&
    existsb (firesKeyActivation ENTER SPACE) (fst (perform props a s)) = false.
Proof.
  intros He Hs Ha.
  assert (Hkey : forall k, k = ENTER \/ k = SPACE ->
            includes [ENTER; SPACE] k = true /\ k <> TAB).
  { intros k Hk. split; [now apply includes_activation_keys|].
    destruct Hk; congruence. }
  unfold exec. destruct Ha as [-> | [-> | ->]].
  - rewrite perform_click. split; reflexivity.
  - destruct (Hkey ENTER) as [Hin Htab]; [now left|].
    rewrite perform_activation_key; trivial. split; reflexivity.
  - destruct (Hkey SPACE) as [Hin Htab]; [now right|].
    rewrite perform_activation_key; trivial. split; reflexivity.
Qed.

(** The guarantee rests on the prevented default: were an activating key-down
    and a pointer activation both delivered, [onClick] would run twice. *)
Remark keydown_and_click_activate_twice (props : Props) (keyCode : Z) (s : Store) :
  includes [ENTER; SPACE] keyCode = true ->
  onClickCalls (exec (run props [KeyDown keyCode; Click]) s) = S (S (onClickCalls s)).
Proof.
  intros Hin. change [KeyDown keyCode; Click] with ([KeyDown keyCode] ++ [Click]).
  rewrite run_snoc, step_store.
  change [KeyDown keyCode] with ([] ++ [KeyDown keyCode]).
  rewrite run_snoc, step_store. simpl.
  unfold exec, IconButtonEnd.onKeyDown, bind, when. rewrite Hin.
  destruct (negb (keyCode =? TAB)); reflexivity.
Qed.

End IconButtonEndFacts.

(** *** Instances at the key codes of the browser *)

Lemma keydown_activation_contract_witness :
  IconButtonEnd.exec
    (IconButtonEnd.ta_onKeyDown
       (TapTarget.tapArea (IconButtonEnd.IconButtonEnd 13 32 9 "c" sampleIconButton false)) 13)
    IconButtonEnd.mount
  = IconButtonEnd.mkStore false 1 true.
Proof.
  apply (keydown_activation_contract 13 32 9 "c" sampleIconButton false 13 IconButtonEnd.mount);
    [lia | lia | left; reflexivity].
Defined.

Lemma background_follows_latest_transition_witness :
  TapTarget.bgColor
    (TapTarget.rendered 13 32 9 "c" sampleIconButton
       (IconButtonEnd.exec
          (TapTarget.run 13 32 9 "c" sampleIconButton [TapTarget.Blur; TapTarget.MouseEnter])
          IconButtonEnd.mount))
  = IconButtonEnd.lightGray.
Proof.
  apply (background_follows_latest_transition 13 32 9 "c" sampleIconButton
           [TapTarget.Blur; TapTarget.MouseEnter]).
  split; [reflexivity | right; reflexivity].
Defined.

(** C4, as stated, fails: the component keeps a single flag for hover and
    focus. After focus, mouse-enter and mouse-leave the element still holds
    keyboard focus and hoverStyle is 'default', yet the background is
    transparent. *)
Lemma background_claim_counterexample :
  ~ (forall (props : IconButtonEnd.Props) (es : list TapTarget.DomEvent),
       TapTarget.bgColor
         (TapTarget.rendered 13 32 9 "c" props
            (IconButtonEnd.exec (TapTarget.run 13 32 9 "c" props es) IconButtonEnd.mount))
       = IconButtonEnd.lightGray
       <-> withDefault IconButtonEnd.hoverDefault (IconButtonEnd.hoverStyle props) = IconButtonEnd.hoverDefault /\
           (TapTarget.pointerInside es = true \/ TapTarget.holdsFocus es = true)).
Proof.
  intros H.
  specialize (H sampleIconButton [TapTarget.Focus; TapTarget.MouseEnter; TapTarget.MouseLeave]).
  destruct H as [_ H].
  assert (E : IconButtonEnd.transparent = IconButtonEnd.lightGray).
  { apply H. split; [reflexivity | right; reflexivity]. }
  discriminate E.
Qed.

Lemma one_activation_per_action_witness :
  IconButtonEnd.onClickCalls
    (IconButtonEnd.exec
       (TapTarget.perform 13 32 9 "c" sampleIconButton (TapTarget.KeyPress 32))
       IconButtonEnd.mount) = 1%nat.
Proof.
  apply (one_activation_per_action 13 32 9 "c" sampleIconButton (TapTarget.KeyPress 32)
           IconButtonEnd.mount); [lia | lia | right; right; reflexivity].
Defined.

Lemma hidden_tap_target_witness :
  IconButtonEnd.ta_tabIndex
    (TapTarget.tapArea (IconButtonEnd.IconButtonEnd 13 32 9 "c" sampleIconButton true)) = -1 /\
  TapTarget.ariaHidden (IconButtonEnd.IconButtonEnd 13 32 9 "c" sampleIconButton true) = true.
Proof.
  apply (hidden_tap_target 13 32 9 "c" sampleIconButton true). reflexivity.
Defined.

Lemma tooltip_iff_truthy_text_witness :
  IconButtonEnd.MaybeTooltip
    (IconButtonEnd.IconButtonEnd 13 32 9 "c" sampleIconButton false)
    (Value "Clear the field"%string)
  = IconButtonEnd.Tooltip true "Clear the field"
      (IconButtonEnd.IconButtonEnd 13 32 9 "c" sampleIconButton false).
Proof.
  apply (proj1 (tooltip_iff_truthy_text 13 32 9 "c"
                  (IconButtonEnd.IconButtonEnd 13 32 9 "c" sampleIconButton false)
                  (Value "Clear the field"%string) false
                  None None None None IconButtonEnd.cancel None None None None None));
    [reflexivity | apply String.eqb_neq; reflexivity].
Defined.

(** ** Checkbox: the experiment flag selects the implementation only *)

Section CheckboxFacts.
Import Checkbox.

Variables ReactNode Ref Callback : Type.
Variable useInExperiment : string -> string -> bool.

(** C3. With isInVRExperiment false, InternalCheckbox is rendered, with
    checked, disabled and indeterminate as the caller supplied them (false
    where omitted); with isInVRExperiment true, VRInternalCheckbox is rendered
    with exactly the prop set InternalCheckbox would have received. *)
Theorem checkbox_variant_same_props (props : Props ReactNode Callback) (ref : Ref) :
  let isInVRExperiment :=
    useInExperiment "web_gestalt_visualrefresh" "web_gestalt_visualrefresh" in
  let element := Checkbox useInExperiment props ref in
  let standard := Checkbox (fun _ _ => false) props ref in
  standard = InternalCheckbox (propsOf standard) /\
  (isInVRExperiment = false -> element = standard) /\
  (isInVRExperiment = true -> element = VRInternalCheckbox (propsOf standard)) /\
  i_checked (propsOf standard) = withDefault false (checked props) /\
  i_disabled (propsOf standard) = withDefault false (disabled props) /\
  i_indeterminate (propsOf standard) = withDefault false (indeterminate props) /\
  (forall c d i,
     checked props = Some c -> disabled props = Some d -> indeterminate props = Some i ->
     i_checked (propsOf standard) = c /\
     i_disabled (propsOf standard) = d /\
     i_indeterminate (propsOf standard) = i).
Proof.
  intros isInVRExperiment element standard.
  subst element standard; unfold Checkbox; fold isInVRExperiment.
  repeat match goal with |- _ /\ _ => split end; try reflexivity.
  - intros ->. reflexivity.
  - intros ->. reflexivity.
  - intros c d i Hc Hd Hi; simpl. rewrite Hc, Hd, Hi. auto.
Qed.

End CheckboxFacts.

Lemma checkbox_variant_same_props_witness :
  Checkbox.Checkbox (fun _ _ => true) sampleCheckbox tt
  = Checkbox.VRInternalCheckbox
      (Checkbox.propsOf (Checkbox.Checkbox (fun _ _ => false) sampleCheckbox tt)) /\
  Checkbox.i_checked
    (Checkbox.propsOf (Checkbox.Checkbox (fun _ _ => false) sampleCheckbox tt)) = true.
Proof.
  pose proof (checkbox_variant_same_props unit unit nat (fun _ _ => true) sampleCheckbox tt) as H.
  cbv zeta in H.
  destruct H as (_ & _ & Hvr & _ & _ & _ & Hvals).
  split.
  - apply Hvr. reflexivity.
  - apply (Hvals true false true); reflexivity.
Defined.

(** ** DatePicker: the mobile sheet *)

Section DatePickerFacts.
Import DatePicker.

Variables Date Locale Ref OnChange OnAnimationEnd Indexable : Type.

#[local] Abbreviation Props := (DatePicker.Props Date Locale Ref OnChange OnAnimationEnd Indexable).
#[local] Abbreviation Hooks := (DatePicker.Hooks Ref).

Variable props : Props.
Variable hooks : Hooks.

#[local] Abbreviation view := (DatePicker props hooks).

Lemma not_mobile_eqb : deviceType hooks <> "mobile"%string ->
  String.eqb (deviceType hooks) "mobile" = false.
Proof. intros H. now apply String.eqb_neq. Qed.

(** Off the mobile branch the render is one plain InternalDatePicker, which
    is given neither [onFocus] nor [onSelect]. *)
Lemma desktop_render (state : State) :
  deviceType hooks <> "mobile"%string \/ withDefault false (disableMobileUI props) = true ->
  exists p,
    view state = InternalDatePicker OnAnimationEnd Indexable p /\
    i_inputOnly p = None /\ i_inline p = None /\
    i_onFocus p = None /\ i_onSelect p = None /\
    i_ref p = Some (innerInputRef hooks).
Proof.
  intros H. unfold DatePicker.DatePicker.
  assert (E : String.eqb (deviceType hooks) "mobile"
              && negb (withDefault false (disableMobileUI props)) = false).
  { destruct H as [H|H].
    - now rewrite not_mobile_eqb.
    - rewrite H. apply andb_false_r. }
  rewrite E. eexists. split; [reflexivity|]. simpl. repeat split.
Qed.

Lemma desktop_step (state : State) (ev : UserEvent) :
  deviceType hooks <> "mobile"%string \/ withDefault false (disableMobileUI props) = true ->
  step props hooks state ev = state.
Proof.
  intros H. unfold step.
  destruct (desktop_render state H) as (p & E & _ & _ & Hf & Hs & _).
  rewrite E. unfold screen; simpl.
  destruct ev as [n|n|n|n]; destruct n as [|[|n]]; simpl;
    rewrite ?Hf, ?Hs; reflexivity.
Qed.

Lemma desktop_run (evs : list UserEvent) (state : State) :
  deviceType hooks <> "mobile"%string \/ withDefault false (disableMobileUI props) = true ->
  run props hooks evs state = state.
Proof.
  intros H. unfold run. revert state.
  induction evs as [|ev evs IH]; intros state; simpl; trivial.
  rewrite desktop_step; auto.
Qed.

(** C7. On a device type other than mobile, or with disableMobileUI=true,
    whatever the events and the state they start from: no SheetMobile is
    rendered, the render is the plain InternalDatePicker alone, and the hook
    state never changes. *)
Theorem no_sheet_off_mobile (evs : list UserEvent) (s0 : State) :
  deviceType hooks <> "mobile"%string \/ withDefault false (disableMobileUI props) = true ->
  let s := run props hooks evs s0 in
  sheetRendered (view s) = false /\
  (exists p, view s = InternalDatePicker OnAnimationEnd Indexable p /\
             i_inputOnly p = None /\ i_inline p = None) /\
  s = s0.
Proof.
  intros H s.
  destruct (desktop_render s H) as (p & E & Hio & Hin & _).
  split; [|split].
  - rewrite E. reflexivity.
  - exists p. auto.
  - apply desktop_run, H.
Qed.

(** C2. On a mobile device type with disableMobileUI false (or omitted): the
    state starts Closed and no SheetMobile is rendered; focus on the date
    field opens the sheet; in the open sheet, selecting a date in the
    calendar and activating the dismiss button both close it, and the
    SheetMobile is no longer rendered. *)
Theorem mobile_sheet_cycle :
  deviceType hooks = "mobile"%string ->
  withDefault false (disableMobileUI props) = false ->
  let opened := step props hooks initial (FocusField 0) in
  (showMobileCalendar initial = false /\
   sheetRendered (view initial) = false /\
   option_map (@i_inputOnly _ _ _ _) (pickerAt (screen (view initial)) 0) = Some (Some true)) /\
  (showMobileCalendar opened = true /\
   sheetRendered (view opened) = true /\
   option_map (@i_inline _ _ _ _) (pickerAt (screen (view opened)) 3) = Some (Some true) /\
   option_map btn_text (buttonAt (screen (view opened)) 2) = Some (dismissButton hooks)) /\
  (forall ev, ev = SelectDate 3 \/ ev = ClickButton 2 ->
     showMobileCalendar (step props hooks opened ev) = false /\
     sheetRendered (view (step props hooks opened ev)) = false).
Proof.
  intros Hd Hm opened.
  assert (Hview : forall state, screen (view state) =
            screen (DatePicker.DatePicker (withDisableMobileUI (Some false) props)
                      (mkHooks "mobile" (accessibilityDismissButtonLabel hooks)
                         (dismissButton hooks) (innerInputRef hooks)) state)).
  { intros state. unfold DatePicker.DatePicker. rewrite Hd, Hm. reflexivity. }
  assert (Hopened : opened = mkState true).
  { subst opened. unfold step. rewrite Hview. reflexivity. }
  rewrite Hopened. unfold sheetRendered, step. rewrite !Hview.
  split; [|split].
  - repeat split.
  - repeat split.
  - intros ev [-> | ->]; rewrite !Hview; split; reflexivity.
Qed.

(** C9. idealDirection left out is 'down', and the value (given or default)
    reaches every InternalDatePicker of every branch: the one of the desktop
    render, the input-only one of the mobile render and the calendar of the
    open sheet. disableMobileUI left out is false. *)
Theorem idealDirection_default_forwarded (state : State) :
  (idealDirection props = None ->
     Forall (fun p => i_idealDirection p = down) (pickers (view state))) /\
  Forall (fun p => i_idealDirection p = withDefault down (idealDirection props))
    (pickers (view state)) /\
  List.length (pickers (view state)) =
    (if String.eqb (deviceType hooks) "mobile" && negb (withDefault false (disableMobileUI props))
     then if showMobileCalendar state then 2 else 1
     else 1)%nat /\
  (disableMobileUI props = None ->
     view state = DatePicker.DatePicker (withDisableMobileUI (Some false) props) hooks state).
Proof.
  assert (Hall : Forall (fun p => i_idealDirection p = withDefault down (idealDirection props))
                   (pickers (view state))).
  { unfold DatePicker.DatePicker, pickers, screen.
    destruct (String.eqb (deviceType hooks) "mobile"
              && negb (withDefault false (disableMobileUI props)));
      destruct state as [[|]]; simpl; repeat constructor. }
  split; [|split; [exact Hall|split]].
  - intros Hnone. rewrite Hnone in Hall. exact Hall.
  - unfold DatePicker.DatePicker, pickers, screen.
    destruct (String.eqb (deviceType hooks) "mobile"
              && negb (withDefault false (disableMobileUI props)));
      destruct state as [[|]]; reflexivity.
  - intros Hnone. unfold DatePicker.DatePicker. rewrite Hnone. reflexivity.
Qed.

End DatePickerFacts.

(** *** Instances on a phone and on a desktop *)

Lemma no_sheet_off_mobile_witness :
  DatePicker.sheetRendered
    (DatePicker.DatePicker sampleDatePicker desktop
       (DatePicker.run sampleDatePicker desktop
          [DatePicker.FocusField 0; DatePicker.SelectDate 3] (DatePicker.mkState true)))
  = false.
Proof.
  apply (no_sheet_off_mobile Z string nat unit unit Z sampleDatePicker desktop
           [DatePicker.FocusField 0; DatePicker.SelectDate 3] (DatePicker.mkState true)).
  left. apply String.eqb_neq. reflexivity.
Defined.

Lemma mobile_sheet_cycle_witness :
  DatePicker.showMobileCalendar
    (DatePicker.step sampleDatePicker phone
       (DatePicker.step sampleDatePicker phone DatePicker.initial (DatePicker.FocusField 0))
       (DatePicker.SelectDate 3))
  = false.
Proof.
  apply (mobile_sheet_cycle Z string nat unit unit Z sampleDatePicker phone);
    [reflexivity | reflexivity | left; reflexivity].
Defined.

Lemma idealDirection_default_forwarded_witness :
  Forall (fun p => DatePicker.i_idealDirection p = DatePicker.down)
    (DatePicker.pickers
       (DatePicker.DatePicker sampleDatePicker phone (DatePicker.mkState true))).
Proof.
  apply (proj1 (idealDirection_default_forwarded Z string nat unit unit Z
                  sampleDatePicker phone (DatePicker.mkState true))).
  reflexivity.
Defined.

(** * Further properties of the components *)

(** ** IconButtonEnd over whole histories of events *)

Section IconButtonEndHistories.
Import IconButtonEnd TapTarget.

Variables ENTER SPACE TAB : Z.
Variable actionButtonContainer : string.

#[local] Abbreviation IconButtonEnd :=
  (IconButtonEnd.IconButtonEnd ENTER SPACE TAB actionButtonContainer).
#[local] Abbreviation onKeyDown := (IconButtonEnd.onKeyDown ENTER SPACE TAB).
#[local] Abbreviation rendered := (TapTarget.rendered ENTER SPACE TAB actionButtonContainer).
#[local] Abbreviation step := (TapTarget.step ENTER SPACE TAB actionButtonContainer).
#[local] Abbreviation run := (TapTarget.run ENTER SPACE TAB actionButtonContainer).

Lemma run_cons (props : Props) (e : DomEvent) (es : list DomEvent) (s : Store) :
  exec (run props (e :: es)) s = exec (run props es) (exec (step props e) s).
Proof.
  simpl. unfold exec, bind. destruct (step props e s) as [[] s']. reflexivity.
Qed.

Lemma onKeyDown_calls (keyCode : Z) (s : Store) :
  onClickCalls (exec (onKeyDown keyCode) s) =
  (onClickCalls s + if includes [ENTER; SPACE] keyCode then 1 else 0)%nat.
Proof.
  unfold exec, IconButtonEnd.onKeyDown, bind, when.
  destruct (includes [ENTER; SPACE] keyCode), (negb (keyCode =? TAB)); simpl; lia.
Qed.

(** X1. The tap target is taken out of the tab order and hidden from
    assistive technology together, and only when accessibilityHidden is
    [true]: left out or [false], the tab index is 0 and nothing is hidden. *)
Theorem hidden_only_when_asked (props : Props) (f : bool) :
  (ta_tabIndex (tapArea (IconButtonEnd props f)) = -1 <->
     accessibilityHidden props = Some true) /\
  (ariaHidden (IconButtonEnd props f) = true <-> accessibilityHidden props = Some true) /\
  (accessibilityHidden props <> Some true ->
     ta_tabIndex (tapArea (IconButtonEnd props f)) = 0).
Proof.
  unfold IconButtonEnd.IconButtonEnd; simpl.
  rewrite tapArea_MaybeTooltip, ariaHidden_MaybeTooltip; simpl.
  destruct (accessibilityHidden props) as [[|]|]; simpl.
  - repeat split; trivial. intros H. now elim H.
  - repeat split; trivial; discriminate.
  - repeat split; trivial; discriminate.
Qed.

(** X2. After any history of events, [onClick] has been called once for each
    click and once for each key-down of Enter or Space in the history, and
    for nothing else. *)
Theorem calls_count_activations (props : Props) (es : list DomEvent) (s : Store) :
  onClickCalls (exec (run props es) s) =
  (onClickCalls s +
   List.length (filter (fun e => firesOnTap e || firesKeyActivation ENTER SPACE e) es))%nat.
Proof.
  revert s. induction es as [|e es IH]; intros s.
  - simpl. unfold exec, ret. simpl. lia.
  - rewrite run_cons, IH, step_store.
    destruct e; cbn [filter firesOnTap firesKeyActivation orb List.length onClickCalls];
      try lia.
    rewrite onKeyDown_calls; cbn [onClickCalls].
    destruct (includes [ENTER; SPACE] keyCode); cbn [List.length]; lia.
Qed.

Lemma lastTransition_filter (es : list DomEvent) :
  lastTransition (filter isTransition es) = lastTransition es.
Proof.
  unfold lastTransition. f_equal. f_equal.
  induction es as [|e es IH]; simpl; trivial.
  destruct (isTransition e) eqn:E; simpl; rewrite ?E, IH; reflexivity.
Qed.

(** X3. Clicks and key presses never change what is drawn: the element on
    screen after a history is the one after its focus, blur, mouse-enter and
    mouse-leave events alone. *)
Theorem render_ignores_clicks_and_keys (props : Props) (es : list DomEvent) (s : Store) :
  rendered props (exec (run props es) s) =
  rendered props (exec (run props (filter isTransition es)) s).
Proof.
  unfold TapTarget.rendered.
  rewrite !focused_after_run, lastTransition_filter. reflexivity.
Qed.

(** X4. With hoverStyle 'none' the hook state is never visible: the render is
    the same whether [focused] is set or not, with a transparent background. *)
Theorem no_hover_style_static (props : Props) (f f' : bool) :
  hoverStyle props = Some hoverNone ->
  IconButtonEnd props f = IconButtonEnd props f' /\
  bgColor (IconButtonEnd props f) = transparent.
Proof.
  intros H. unfold bgColor, IconButtonEnd.IconButtonEnd.
  rewrite H; simpl. rewrite tapArea_MaybeTooltip, !andb_false_r. split; reflexivity.
Qed.

End IconButtonEndHistories.

Lemma hidden_only_when_asked_witness :
  IconButtonEnd.ta_tabIndex
    (TapTarget.tapArea
       (IconButtonEnd.IconButtonEnd 13 32 9 "c"
          (IconButtonEnd.mkProps None (Some false) None None IconButtonEnd.eye
             None None None None) true)) = 0.
Proof.
  apply (hidden_only_when_asked 13 32 9 "c"
           (IconButtonEnd.mkProps None (Some false) None None IconButtonEnd.eye
              None None None None) true).
  discriminate.
Defined.

Lemma no_hover_style_static_witness :
  IconButtonEnd.IconButtonEnd 13 32 9 "c"
    (IconButtonEnd.mkProps None None None (Some IconButtonEnd.hoverNone) IconButtonEnd.eye
       None None None None) true
  = IconButtonEnd.IconButtonEnd 13 32 9 "c"
      (IconButtonEnd.mkProps None None None (Some IconButtonEnd.hoverNone) IconButtonEnd.eye
         None None None None) false.
Proof.
  apply (no_hover_style_static 13 32 9 "c"
           (IconButtonEnd.mkProps None None None (Some IconButtonEnd.hoverNone)
              IconButtonEnd.eye None None None None) true false).
  reflexivity.
Defined.

(** ** Checkbox: defaults *)

Section CheckboxDefaultsFacts.
Import Checkbox CheckboxDefaults.

Variables ReactNode Ref Callback : Type.
Variable useInExperiment : string -> string -> bool.

(** X5. Leaving out checked, disabled, indeterminate, labelDisplay or size is
    the same as passing false, false, false, 'visible' and 'md': the render
    of the props with the defaults written out is the render of the props,
    in either implementation, and writing the defaults out twice changes
    nothing more. *)
Theorem checkbox_defaults_explicit (props : Props ReactNode Callback) (ref : Ref) :
  Checkbox useInExperiment (fillDefaults props) ref = Checkbox useInExperiment props ref /\
  fillDefaults (fillDefaults props) = fillDefaults props /\
  i_labelDisplay (propsOf (Checkbox useInExperiment props ref)) =
    withDefault visible (labelDisplay props) /\
  i_size (propsOf (Checkbox useInExperiment props ref)) = withDefault md (size props).
Proof.
  unfold Checkbox.
  destruct (useInExperiment "web_gestalt_visualrefresh" "web_gestalt_visualrefresh");
    repeat split.
Qed.

End CheckboxDefaultsFacts.

(** ** DatePicker: the sheet as a state machine, and what each picker is given *)

Section DatePickerMachine.
Import DatePicker DatePickerFields.

Variables Date Locale Ref OnChange OnAnimationEnd Indexable : Type.

#[local] Abbreviation Props := (DatePicker.Props Date Locale Ref OnChange OnAnimationEnd Indexable).
#[local] Abbreviation Hooks := (DatePicker.Hooks Ref).

Variable props : Props.
Variable hooks : Hooks.

#[local] Abbreviation view := (DatePicker props hooks).

(** X6. A SheetMobile is on screen exactly when the device type is 'mobile',
    disableMobileUI is not set and showMobileCalendar is true. *)
Theorem sheet_rendered_iff (state : State) :
  sheetRendered (view state) =
  String.eqb (deviceType hooks) "mobile"
  && negb (withDefault false (disableMobileUI props))
  && showMobileCalendar state.
Proof.
  unfold DatePicker.DatePicker, sheetRendered, screen.
  destruct (String.eqb (deviceType hooks) "mobile"
            && negb (withDefault false (disableMobileUI props)));
    destruct state as [[|]]; reflexivity.
Qed.

(** On mobile, the screen is that of the same props rendered with a literal
    'mobile' device type and disableMobileUI false. *)
Lemma mobile_screen (state : State) :
  deviceType hooks = "mobile"%string ->
  withDefault false (disableMobileUI props) = false ->
  screen (view state) =
  screen (DatePicker.DatePicker (withDisableMobileUI (Some false) props)
            (mkHooks "mobile" (accessibilityDismissButtonLabel hooks)
               (dismissButton hooks) (innerInputRef hooks)) state).
Proof.
  intros Hd Hm. unfold DatePicker.DatePicker. rewrite Hd, Hm. reflexivity.
Qed.

(** X7. The transitions of the mobile branch, at every position of the
    screen: focus on the date field (position 0) opens the sheet; with the
    sheet open, closing the sheet (position 1), the dismiss button
    (position 2) and a date selected in the calendar (position 3) close it;
    every other event, at every other position, leaves the state as it is. *)
Theorem mobile_transitions (state : State) (n : nat) :
  deviceType hooks = "mobile"%string ->
  withDefault false (disableMobileUI props) = false ->
  step props hooks state (FocusField n) = (if (n =? 0)%nat then mkState true else state) /\
  step props hooks state (CloseSheet n) =
    (if (n =? 1)%nat && showMobileCalendar state then mkState false else state) /\
  step props hooks state (ClickButton n) =
    (if (n =? 2)%nat && showMobileCalendar state then mkState false else state) /\
  step props hooks state (SelectDate n) =
    (if (n =? 3)%nat && showMobileCalendar state then mkState false else state).
Proof.
  intros Hd Hm. unfold step. rewrite (mobile_screen state Hd Hm).
  destruct state as [[|]];
    destruct n as [|[|[|[|[|n]]]]]; repeat split.
Qed.

(** With the sheet closed only the date field is mounted, and only focus
    on it does anything. *)
Lemma closed_stays_closed (ev : UserEvent) :
  deviceType hooks = "mobile"%string ->
  withDefault false (disableMobileUI props) = false ->
  ev <> FocusField 0 ->
  step props hooks (mkState false) ev = mkState false.
Proof.
  intros Hd Hm Hev. unfold step. rewrite (mobile_screen (mkState false) Hd Hm).
  destruct ev as [n|n|n|n]; destruct n as [|[|n]]; try reflexivity.
  now elim Hev.
Qed.

(** X8. On mobile the sheet opens by focus on the date field and by nothing
    else: a history of events without a focus on position 0 that starts with
    the sheet closed ends with it closed. *)
Theorem sheet_opens_by_focus_only (evs : list UserEvent) (state : State) :
  deviceType hooks = "mobile"%string ->
  withDefault false (disableMobileUI props) = false ->
  ~ In (FocusField 0) evs ->
  showMobileCalendar state = false ->
  showMobileCalendar (run props hooks evs state) = false.
Proof.
  intros Hd Hm. unfold run. revert state.
  induction evs as [|ev evs IH]; intros state Hnot Hclosed; simpl; trivial.
  apply IH.
  - intros Hin. apply Hnot. now right.
  - destruct state as [b]; simpl in Hclosed; subst b.
    rewrite closed_stays_closed; trivial.
    intros ->. apply Hnot. now left.
Qed.

(** X9. With the sheet open, the date field and the calendar in the sheet are
    given the same id, value, onChange, date bounds and lists, locale, range
    props, select lists, size, error message, nextRef, idealDirection and
    _overrideRangeDateFix; the calendar is inline and is given no ref,
    disabled, helperText, label, name, placeholder or readOnly. *)
Theorem field_and_calendar_agree :
  deviceType hooks = "mobile"%string ->
  withDefault false (disableMobileUI props) = false ->
  exists field calendar,
    pickers (view (mkState true)) = [field; calendar] /\
    (i_id calendar = i_id field /\ i_value calendar = i_value field /\
     i_onChange calendar = i_onChange field /\
     i_minDate calendar = i_minDate field /\ i_maxDate calendar = i_maxDate field /\
     i_excludeDates calendar = i_excludeDates field /\
     i_includeDates calendar = i_includeDates field /\
     i_localeData calendar = i_localeData field /\
     i_rangeStartDate calendar = i_rangeStartDate field /\
     i_rangeEndDate calendar = i_rangeEndDate field /\
     i_rangeSelector calendar = i_rangeSelector field /\
     i_selectLists calendar = i_selectLists field /\ i_size calendar = i_size field /\
     i_errorMessage calendar = i_errorMessage field /\
     i_nextRef calendar = i_nextRef field /\
     i_idealDirection calendar = i_idealDirection field /\
     i_overrideRangeDateFix calendar = i_overrideRangeDateFix field) /\
    (i_value field = value props /\ i_id field = id props /\
     i_disabled field = disabled props /\ i_readOnly field = readOnly props /\
     i_overrideRangeDateFix field = withDefault false (_overrideRangeDateFix props)) /\
    (i_inline calendar = Some true /\ i_ref calendar = None /\
     i_disabled calendar = None /\ i_helperText calendar = None /\
     i_label calendar = None /\ i_name calendar = None /\
     i_placeholder calendar = None /\ i_readOnly calendar = None).
Proof.
  intros Hd Hm. unfold pickers, DatePicker.DatePicker, screen. rewrite Hd, Hm. simpl.
  eexists. eexists. split; [reflexivity|]. simpl. repeat split.
Qed.

(** X10. With disableMobileUI set, the render consults neither the device
    type, nor the labels of the dismiss button, nor the sheet state: two
    renders with the same inner ref are equal. *)
Theorem disabled_mobile_ui_ignores_device (hooks' : Hooks) (state state' : State) :
  withDefault false (disableMobileUI props) = true ->
  innerInputRef hooks' = innerInputRef hooks ->
  DatePicker.DatePicker props hooks' state' = view state.
Proof.
  intros Hm Hr. unfold DatePicker.DatePicker. rewrite Hm, Hr, !andb_false_r. reflexivity.
Qed.

(** X11. The date field of the mobile branch is the picker of the desktop
    branch with inputOnly and onFocus added and nothing else changed:
    stripped of the two, it is the render of the same props with
    disableMobileUI set. *)
Theorem mobile_field_is_desktop_field (state : State) :
  deviceType hooks = "mobile"%string ->
  withDefault false (disableMobileUI props) = false ->
  exists field,
    pickerAt (screen (view state)) 0 = Some field /\
    i_inputOnly field = Some true /\
    i_onFocus field = Some (setShowMobileCalendar true) /\
    DatePicker.DatePicker (withDisableMobileUI (Some true) props) hooks state =
    InternalDatePicker OnAnimationEnd Indexable (plainField field).
Proof.
  intros Hd Hm. unfold DatePicker.DatePicker. rewrite Hd, Hm. simpl.
  eexists. split; [destruct state as [[|]]; reflexivity|]. simpl. repeat split.
Qed.

End DatePickerMachine.

Lemma mobile_transitions_witness :
  DatePicker.step sampleDatePicker phone (DatePicker.mkState true) (DatePicker.CloseSheet 1)
  = DatePicker.mkState false.
Proof.
  apply (mobile_transitions Z string nat unit unit Z sampleDatePicker phone
           (DatePicker.mkState true) 1); reflexivity.
Defined.

Lemma sheet_opens_by_focus_only_witness :
  DatePicker.showMobileCalendar
    (DatePicker.run sampleDatePicker phone
       [DatePicker.FocusField 3; DatePicker.SelectDate 0; DatePicker.ClickButton 2]
       DatePicker.initial) = false.
Proof.
  apply (sheet_opens_by_focus_only Z string nat unit unit Z sampleDatePicker phone);
    [reflexivity | reflexivity | | reflexivity].
  simpl. intros [H | [H | [H | H]]]; try discriminate H. exact H.
Defined.

Lemma field_and_calendar_agree_witness :
  exists field calendar,
    DatePicker.pickers
      (DatePicker.DatePicker sampleDatePicker phone (DatePicker.mkState true))
    = [field; calendar] /\
    DatePicker.i_id calendar = DatePicker.i_id field.
Proof.
  destruct (field_and_calendar_agree Z string nat unit unit Z sampleDatePicker phone)
    as (field & calendar & Hp & (Hid & _) & _); [reflexivity | reflexivity |].
  exists field, calendar. split; assumption.
Defined.

Lemma disabled_mobile_ui_ignores_device_witness :
  DatePicker.DatePicker (DatePicker.withDisableMobileUI (Some true) sampleDatePicker)
    desktop (DatePicker.mkState false)
  = DatePicker.DatePicker (DatePicker.withDisableMobileUI (Some true) sampleDatePicker)
      phone (DatePicker.mkState true).
Proof.
  apply (disabled_mobile_ui_ignores_device Z string nat unit unit Z
           (DatePicker.withDisableMobileUI (Some true) sampleDatePicker) phone desktop);
    reflexivity.
Defined.

Lemma mobile_field_is_desktop_field_witness :
  exists field,
    DatePicker.pickerAt
      (DatePicker.screen
         (DatePicker.DatePicker sampleDatePicker phone (DatePicker.mkState false))) 0
    = Some field /\
    DatePicker.i_inputOnly field = Some true.
Proof.
  destruct (mobile_field_is_desktop_field Z string nat unit unit Z sampleDatePicker phone
              (DatePicker.mkState false)) as (field & Hp & Hi & _);
    [reflexivity | reflexivity |].
  exists field. split; assumption.
Defined.

(** ** The positioning example: its three radio groups *)

Section PositioningExampleFacts.
Import PositioningExample.

Lemma one_of_two (s a b : string) :
  a <> b -> String.eqb s a && String.eqb s b = false.
Proof.
  intros Hab. destruct (String.eqb_spec s a) as [->|]; simpl; trivial.
  now apply String.eqb_neq.
Qed.

(** At most one of the buttons of a group is checked when their values
    differ. *)
Lemma strictEq_exclusive (v : option string) (a b : string) :
  a <> b -> strictEq v a && strictEq v b = false.
Proof.
  intros Hab. destruct v as [s|]; simpl; trivial. now apply one_of_two.
Qed.

(** Is the state the given value? If so the goal computes. *)
Ltac case_value s literal :=
  destruct (String.eqb_spec s literal) as [->|];
  [cbn; lia | cbn -[String.eqb]].

(** X12. In every state, also one no handler of the example produces, each of
    the three radio groups has at most one checked button; the example has
    three groups of 3, 3 and 4 buttons and none is checked at first. *)
Theorem radio_groups_exclusive (state : State) :
  Forall (fun group => (checkedCount group <= 1)%nat) (radioGroups (Example state)) /\
  map (@List.length _) (radioGroups (Example state)) = [3; 3; 4]%nat /\
  map checkedCount (radioGroups (Example initial)) = [0; 0; 0]%nat.
Proof.
  split; [|split; reflexivity].
  destruct state as [c cl d]. unfold checkedCount.
  cbn -[String.eqb strictEq].
  constructor; [|constructor; [|constructor; [|constructor]]].
  - destruct c as [s|]; cbn -[String.eqb]; [|lia].
    case_value s ("all"%string). case_value s ("organic"%string).
    destruct (String.eqb s "paid"); cbn; lia.
  - destruct cl as [s|]; cbn -[String.eqb]; [|lia].
    case_value s ("all"%string). case_value s ("instagram"%string).
    destruct (String.eqb s "other"); cbn; lia.
  - destruct d as [s|]; cbn -[String.eqb]; [|lia].
    case_value s ("all"%string). case_value s ("mobile"%string). case_value s ("desktop"%string).
    destruct (String.eqb s "tablet"); cbn; lia.
Qed.

(** X13. When the [onChange] of a radio button runs, that button becomes the
    only checked one among the buttons of the same name, and the buttons of
    the other groups keep their state. *)
Theorem radio_change_selects (state : State) (button : RadioButtonProps) :
  In button (radioButtons (Example state)) ->
  map rb_checked (radioButtons (Example (rb_onChange button state))) =
  map (fun b => if String.eqb (rb_name b) (rb_name button)
                then String.eqb (rb_id b) (rb_id button)
                else rb_checked b)
      (radioButtons (Example state)).
Proof.
  simpl. intros H.
  repeat (destruct H as [<- | H]; [reflexivity|]).
  contradiction.
Qed.

(** X14. A selection is never lost: a group with one checked button still
    has one after the [onChange] of any button, of this group or another. *)
Theorem radio_selection_kept (state : State) (button : RadioButtonProps) :
  In button (radioButtons (Example state)) ->
  Forall2 (fun before after => checkedCount before = 1%nat -> checkedCount after = 1%nat)
    (radioGroups (Example state))
    (radioGroups (Example (rb_onChange button state))).
Proof.
  simpl. intros H.
  repeat (destruct H as [<- | H];
          [unfold checkedCount; simpl; repeat constructor; auto|]).
  contradiction.
Qed.

End PositioningExampleFacts.

Lemma radio_change_selects_witness :
  map PositioningExample.rb_checked
    (PositioningExample.radioButtons
       (PositioningExample.Example
          (PositioningExample.setDevice "tablet" PositioningExample.initial)))
  = [false; false; false; false; false; false; false; false; false; true].
Proof.
  apply (radio_change_selects PositioningExample.initial
           (PositioningExample.mkRadio false "tablet" "Tablet" "device"
              (fun s => PositioningExample.setDevice "tablet" s) "tablet")).
  simpl. do 9 right. left. reflexivity.
Defined.

Lemma radio_selection_kept_witness :
  Forall2
    (fun before after =>
       PositioningExample.checkedCount before = 1%nat ->
       PositioningExample.checkedCount after = 1%nat)
    (PositioningExample.radioGroups
       (PositioningExample.Example (PositioningExample.mkState (Some "paid"%string) None None)))
    (PositioningExample.radioGroups
       (PositioningExample.Example
          (PositioningExample.setClaimed "other"
             (PositioningExample.mkState (Some "paid"%string) None None)))).
Proof.
  apply (radio_selection_kept (PositioningExample.mkState (Some "paid"%string) None None)
           (PositioningExample.mkRadio false "other" "Other pins" "claimed"
              (fun s => PositioningExample.setClaimed "other" s) "other")).
  simpl. do 5 right. left. reflexivity.
Defined.
